(** * Exchange calculator API server (api_server.py)

    A shallow embedding of the Flask handlers of [api_server.py]:
    [get_rates], [calculate] and [static_files].  Python values are an
    inductive type of JSON-like objects, Python floats are binary64
    numbers (Rocq's primitive floats), dictionaries are finite maps, and
    code that may raise runs in an exception monad whose [Raise] carries
    the exception instance caught by [except Exception as e].

    The collaborators that live outside [api_server.py] (the rate
    provider, the two calculator classes, the clock, the static folder and
    Python's string-to-float parser) are fields of an environment record:
    the handlers are functions of the environment and of the request. *)

From Stdlib Require Import ZArith Floats.
From stdpp Require Import gmap strings.

Set Warnings "-inexact-float,-register-all".

Local Open Scope Z_scope.

(** ** The Python runtime the handlers rely on *)

Module Py.

(** Objects that travel through the handlers: what [request.get_json()]
    yields and what [jsonify] accepts. *)
Inductive value : Type :=
  | VNone
  | VBool (b : bool)
  | VInt (z : Z)
  | VFloat (f : float)
  | VStr (s : string)
  | VList (l : list value)
  | VDict (d : gmap string value).

(** An instance of a subclass of [Exception]: its class and [str(e)]. *)
Inductive exn : Type := Exn (cls : string) (msg : string).

Definition str_of_exn (e : exn) : string :=
  match e with Exn _ msg => msg end.

(** Outcome of running Python code: a value, or a raised exception. *)
Inductive result (A : Type) : Type :=
  | Return (a : A)
  | Raise (e : exn).
Arguments Return {A} a.
Arguments Raise {A} e.

Definition bind {A B : Type} (m : result A) (k : A → result B) : result B :=
  match m with
  | Return a => k a
  | Raise e => Raise e
  end.

Definition type_name (v : value) : string :=
  match v with
  | VNone => "NoneType"
  | VBool _ => "bool"
  | VInt _ => "int"
  | VFloat _ => "float"
  | VStr _ => "str"
  | VList _ => "list"
  | VDict _ => "dict"
  end.

(** [obj.get(key, default)]: only dictionaries have the method. *)
Definition get (obj : value) (key : string) (dflt : value) : result value :=
  match obj with
  | VDict d => Return (default dflt (d !! key))
  | _ => Raise (Exn "AttributeError"
                 ("'" +:+ type_name obj +:+ "' object has no attribute 'get'"))
  end.

(** [obj[key]] for a string key. *)
Definition getitem (obj : value) (key : string) : result value :=
  match obj with
  | VDict d =>
      match d !! key with
      | Some v => Return v
      | None => Raise (Exn "KeyError" ("'" +:+ key +:+ "'"))
      end
  | VList _ =>
      Raise (Exn "TypeError" "list indices must be integers or slices, not str")
  | VStr _ =>
      Raise (Exn "TypeError" "string indices must be integers, not 'str'")
  | _ => Raise (Exn "TypeError"
                 ("'" +:+ type_name obj +:+ "' object is not subscriptable"))
  end.

(** [v == s] for a string literal [s]: true only on an equal [str]. *)
Definition eq_str (v : value) (s : string) : bool :=
  match v with
  | VStr t => String.eqb t s
  | _ => false
  end.

(** [float(z)] on an [int]: the nearest binary64 number (ties to even),
    [OverflowError] when that is out of range. *)
Definition float_of_int (z : Z) : result float :=
  match SpecFloat.binary_normalize prec emax z 0 false with
  | S754_infinity _ =>
      Raise (Exn "OverflowError" "int too large to convert to float")
  | f => Return (SF2Prim f)
  end.

(** [float(v)].  The parser of [float(str)] is the runtime's; it is
    passed in as [float_of_str]. *)
Definition float_ (float_of_str : string → result float) (v : value)
  : result float :=
  match v with
  | VFloat f => Return f
  | VInt z => float_of_int z
  | VBool b => Return (if b then 1%float else 0%float)
  | VStr s => float_of_str s
  | _ => Raise (Exn "TypeError"
                 ("float() argument must be a string or a real number, not '"
                  +:+ type_name v +:+ "'"))
  end.

(** [s.startswith(p)] and [s.endswith(p)]. *)
Definition startswith (s p : string) : bool := String.prefix p s.

Definition endswith (s p : string) : bool :=
  (String.length p <=? String.length s)%nat
  && String.eqb
       (String.substring (String.length s - String.length p)
                         (String.length p) s) p.

End Py.

Import Py.

(** [x ← m; k] (stdpp's notation) sequences two statements of a [try]
    block: an exception raised by [m] skips [k]. *)
#[global] Instance result_bind : MBind result := λ A B k m, bind m k.
#[global] Instance result_ret : MRet result := λ A a, Return a.

(** ** Requests, responses and the environment *)

(** What a handler returns: a body and the HTTP status. *)
Inductive body : Type :=
  | Json (v : value)          (* jsonify(v) *)
  | Text (s : string)         (* a plain string *)
  | File (contents : string). (* bytes of a file, whole or in part *)

(** A response: body and HTTP status.  [app.send_static_file] builds one
    itself (200 with the file, 304 on a conditional request, 206 on a
    range request). *)
Definition response : Type := body * Z.

(** A POST request, as far as [calculate] looks at it. *)
Record request := { get_json : result value }.

(** The request whose JSON body is the object [data]. *)
Definition post (data : gmap string value) : request :=
  {| get_json := Return (VDict data) |}.

(** The object built by [BrokerCalculatorDetailed(...)]: its six
    operations (module [broker_detailed]). *)
Record broker_calc := {
  rub_to_thb_target : float → result value;
  rub_to_thb_amount : float → result value;
  thb_to_usdt_target : float → result value;
  thb_to_usdt_amount : float → result value;
  usdt_to_thb_target : float → result value;
  usdt_to_thb_amount : float → result value
}.

(** The object built by [ExchangeCalculator(...)] (module [calculator]). *)
Record exchange_calc := {
  rub_to_thb : float → result value;
  thb_to_rub : float → result value
}.

Record Env := {
  (* float(s) on a str *)
  float_of_str : string → result float;
  (* asyncio.run(ExchangeRateProvider.get_all_rates()) *)
  get_all_rates : result value;
  (* asyncio.run(get_timestamp()), i.e. datetime.now().isoformat() *)
  get_timestamp : string;
  (* from broker_detailed import BrokerCalculatorDetailed; the class is
     called with (usdt_thb, custom_rub_usdt, commission_level) *)
  BrokerCalculatorDetailed : result (value → float → value → result broker_calc);
  (* ExchangeCalculator(usdt_thb, rub_usdt) *)
  ExchangeCalculator : value → value → result exchange_calc;
  (* app.send_static_file(filename): the Response it builds, or the
     exception it raises (NotFound for a missing file) *)
  send_static_file : string → result response
}.

(** ** The handlers *)

Definition error_body (msg : string) : body :=
  Json (VDict {[ "error" := VStr msg ]}).

(** [get_rates]: GET /api/rates. *)
Definition get_rates_try (env : Env) : result response :=
  rates ← get_all_rates env;
  usdt_thb ← getitem rates "usdt_thb";
  rub_usdt ← getitem rates "rub_usdt";
  Return (Json (VDict (<["usdt_thb" := usdt_thb]>
                      (<["rub_usdt" := rub_usdt]>
                      {[ "timestamp" := VStr (get_timestamp env) ]}))),
          200).

Definition get_rates (env : Env) : response :=
  match get_rates_try env with
  | Return r => r
  | Raise e =>
      (Json (VDict (<["error" := VStr (str_of_exn e)]>
                   (<["usdt_thb" := VFloat 31.16%float]>
                   {[ "rub_usdt" := VFloat 84.2271%float ]}))),
       500)
  end.

(** The dispatch of broker mode on [scenario] and [direction]. *)
Definition broker_dispatch (broker : broker_calc) (scenario direction : value)
    (amount : float) : result response :=
  if eq_str scenario "rub-to-thb" then
    result ← (if eq_str direction "target"
              then rub_to_thb_target broker amount
              else rub_to_thb_amount broker amount);
    Return (Json result, 200)
  else if eq_str scenario "thb-to-usdt" then
    result ← (if eq_str direction "target"
              then thb_to_usdt_target broker amount
              else thb_to_usdt_amount broker amount);
    Return (Json result, 200)
  else if eq_str scenario "usdt-to-thb" then
    result ← (if eq_str direction "target"
              then usdt_to_thb_target broker amount
              else usdt_to_thb_amount broker amount);
    Return (Json result, 200)
  else
    Return (error_body "Invalid scenario for broker", 400).

(** The body of the [try] block of [calculate]. *)
Definition calculate_try (env : Env) (req : request) : result response :=
  data ← get_json req;
  method ← get data "method" (VStr "doverka");
  scenario ← get data "scenario" (VStr "rub-to-thb");
  direction ← get data "direction" (VStr "amount");
  amount_field ← get data "amount" (VInt 0);
  amount ← float_ (float_of_str env) amount_field;
  if (amount <=? 0)%float then
    Return (error_body "Invalid amount", 400)
  else
    rates ← get_all_rates env;
    if eq_str method "broker" then
      cls ← BrokerCalculatorDetailed env;
      custom_field ← get data "custom_rub_usdt" (VFloat 80.9%float);
      custom_rub_usdt ← float_ (float_of_str env) custom_field;
      commission_level ← get data "commission_level" (VStr "medium");
      usdt_thb ← getitem rates "usdt_thb";
      broker ← cls usdt_thb custom_rub_usdt commission_level;
      broker_dispatch broker scenario direction amount
    else
      usdt_thb ← getitem rates "usdt_thb";
      rub_usdt ← getitem rates "rub_usdt";
      calculator ← ExchangeCalculator env usdt_thb rub_usdt;
      result ← (if eq_str scenario "rub-to-thb"
                then rub_to_thb calculator amount
                else thb_to_rub calculator amount);
      Return (Json result, 200).

(** [calculate]: POST /api/calculate. *)
Definition calculate (env : Env) (req : request) : response :=
  match calculate_try env req with
  | Return r => r
  | Raise e => (error_body (str_of_exn e), 500)
  end.

(** [static_files]: the view function of the rule /<path:filename>.  It
    is handed the file name the rule extracted; which requests reach it is
    decided by the URL map, where other rules come first (see [static]). *)
Definition allowed_extensions : list string :=
  [".css"; ".js"; ".png"; ".jpg"; ".jpeg"; ".gif"; ".svg"; ".ico"].

Definition has_allowed_extension (filename : string) : bool :=
  existsb (endswith filename) allowed_extensions.

Definition static_files (env : Env) (filename : string) : response :=
  if startswith filename "api" then (Text "", 404)
  else if negb (has_allowed_extension filename) then (Text "", 404)
  else
    match send_static_file env filename with
    | Return resp => resp
    | Raise _ => (Text "", 404)
    end.

(** The view function of the rule /./<path:filename>, which
    [Flask(__name__, static_folder='.')] (line 16) registers for the
    static folder: the framework's static endpoint, that is
    [send_static_file] itself, with no check on the name.  Having a static
    first segment, the rule is matched before the catch-all rule of
    [static_files]. *)
Definition static (env : Env) (filename : string) : result response :=
  send_static_file env filename.

(** [index]: the view function of the rule /.  It returns the Response of
    [send_static_file] as it is; there is no [try] around the call, so
    what that raises goes up to the framework. *)
Definition index (env : Env) : result response :=
  send_static_file env "index.html".

(** [health_check]: GET /api/health. *)
Definition health_check : response :=
  (Json (VDict (<["status" := VStr "ok"]>
               {[ "message" := VStr "Exchange Calculator API is running" ]})),
   200).

(** [api_info]: GET /api.  No status is given, so it is 200. *)
Definition api_info : response :=
  (Json (VDict (<["name" := VStr "Exchange Calculator API"]>
               (<["version" := VStr "1.0.0"]>
               {[ "endpoints" :=
                    VDict (<["/api/rates" := VStr "GET - Получить актуальные курсы"]>
                          (<["/api/calculate" := VStr "POST - Рассчитать обмен"]>
                          {[ "/api/health" := VStr "GET - Проверка здоровья" ]})) ]}))),
   200).

(** ** Views on requests and responses *)

(** The value stored under [key] in a JSON object body. *)
Definition body_field (r : response) (key : string) : option value :=
  match r.1 with
  | Json (VDict d) => d !! key
  | _ => None
  end.

(** [calculate] looks at the request object through six [get] calls only. *)
Definition request_fields (data : gmap string value)
  : value * value * value * value * value * value :=
  (default (VStr "doverka") (data !! "method"),
   default (VStr "rub-to-thb") (data !! "scenario"),
   default (VStr "amount") (data !! "direction"),
   default (VInt 0) (data !! "amount"),
   default (VFloat 80.9%float) (data !! "custom_rub_usdt"),
   default (VStr "medium") (data !! "commission_level")).

(** Modelled from the spec: the rate snapshot that
    [ExchangeRateProvider.get_all_rates] (module [calculator], outside
    [api_server.py]) returns on success, a mapping that holds the two
    float rates [usdt_thb] and [rub_usdt]. *)
Definition RateSnapshot (usdt_thb rub_usdt : float) (rates : value) : Prop :=
  ∃ d : gmap string value,
    rates = VDict d
    ∧ d !! "usdt_thb" = Some (VFloat usdt_thb)
    ∧ d !! "rub_usdt" = Some (VFloat rub_usdt).

(** The environment [env] in which the rate fetch returns [rates]. *)
Definition with_rates (env : Env) (rates : value) : Env := {|
  float_of_str := float_of_str env;
  get_all_rates := Return rates;
  get_timestamp := get_timestamp env;
  BrokerCalculatorDetailed := BrokerCalculatorDetailed env;
  ExchangeCalculator := ExchangeCalculator env;
  send_static_file := send_static_file env
|}.

(** The fields of the request object that [calculate] reads. *)
Definition request_keys : list string :=
  ["method"; "scenario"; "direction"; "amount"; "custom_rub_usdt";
   "commission_level"].

(** ** Sample environment and checks on concrete inputs *)

Definition tagged (op : string) (amount : float) : result value :=
  Return (VDict (<["op" := VStr op]> {[ "amount" := VFloat amount ]})).

Definition sample_broker : broker_calc := {|
  rub_to_thb_target := tagged "rub_to_thb_target";
  rub_to_thb_amount := tagged "rub_to_thb_amount";
  thb_to_usdt_target := tagged "thb_to_usdt_target";
  thb_to_usdt_amount := tagged "thb_to_usdt_amount";
  usdt_to_thb_target := tagged "usdt_to_thb_target";
  usdt_to_thb_amount := tagged "usdt_to_thb_amount"
|}.

Definition sample_exchange : exchange_calc := {|
  rub_to_thb := tagged "rub_to_thb";
  thb_to_rub := tagged "thb_to_rub"
|}.

Definition sample_rates : value :=
  VDict (<["usdt_thb" := VFloat 31.5%float]> {[ "rub_usdt" := VFloat 80.25%float ]}).

(** An environment in which every collaborator works.  Its [float(str)]
    rejects every string; the sample requests carry numbers. *)
Definition env_up : Env := {|
  float_of_str := fun s =>
    Raise (Exn "ValueError" ("could not convert string to float: '" +:+ s +:+ "'"));
  get_all_rates := Return sample_rates;
  get_timestamp := "2024-01-01T00:00:00";
  BrokerCalculatorDetailed := Return (fun _ _ _ => Return sample_broker);
  ExchangeCalculator := fun _ _ => Return sample_exchange;
  send_static_file := fun name => Return (File ("contents of " +:+ name), 200)
|}.

(** The same environment with the rate source unreachable. *)
Definition env_down : Env := {|
  float_of_str := float_of_str env_up;
  get_all_rates := Raise (Exn "ConnectionError" "upstream unavailable");
  get_timestamp := get_timestamp env_up;
  BrokerCalculatorDetailed := BrokerCalculatorDetailed env_up;
  ExchangeCalculator := ExchangeCalculator env_up;
  send_static_file := send_static_file env_up
|}.

Example float_of_int_0 : float_of_int 0 = Return 0%float.
Proof. vm_compute. reflexivity. Qed.

Example float_of_int_100 : float_of_int 100 = Return 100%float.
Proof. vm_compute. reflexivity. Qed.

Example endswith_css : endswith "style.css" ".css" = true.
Proof. reflexivity. Qed.

Example endswith_short : endswith "ss" ".css" = false.
Proof. reflexivity. Qed.

Example calculate_negative :
  calculate env_up (post (<["amount" := VInt (-5)]> ∅))
  = (error_body "Invalid amount", 400).
Proof. vm_compute. reflexivity. Qed.

(** ** Properties *)

(** The early return of [calculate]: the amount fails its test. *)
Lemma calculate_try_amount_le_0 (env : Env) (data : gmap string value) (a : float) :
  float_ (float_of_str env) (default (VInt 0) (data !! "amount")) = Return a →
  (a <=? 0)%float = true →
  calculate_try env (post data) = Return (error_body "Invalid amount", 400).
Proof.
  intros Hfloat Hle.
  unfold calculate_try. simpl.
  rewrite Hfloat. simpl. rewrite Hle. reflexivity.
Qed.

(** C2: a request whose amount converts to a number [<= 0] is answered
    with status 400 and body [{error: "Invalid amount"}], whatever the
    other fields and the environment are. *)
Theorem calculate_invalid_amount (env : Env) (data : gmap string value) (a : float) :
  float_ (float_of_str env) (default (VInt 0) (data !! "amount")) = Return a →
  (a <=? 0)%float = true →
  calculate env (post data) = (error_body "Invalid amount", 400).
Proof.
  intros Hfloat Hle.
  unfold calculate.
  by rewrite (calculate_try_amount_le_0 env data a Hfloat Hle).
Qed.

Lemma calculate_invalid_amount_witness :
  calculate env_up
    (post (<["amount" := VInt (-5)]> (<["method" := VStr "broker"]> ∅)))
  = (error_body "Invalid amount", 400).
Proof.
  apply (calculate_invalid_amount env_up _ (-5)%float).
  - vm_compute. reflexivity.
  - vm_compute. reflexivity.
Defined.

(** *** Facts about the runtime model *)

(** A positive float fails the test [amount <= 0]. *)
Lemma positive_not_le (a : float) :
  (0 <? a)%float = true → (a <=? 0)%float = false.
Proof.
  rewrite ltb_spec, leb_spec.
  change (Prim2SF 0) with (S754_zero false).
  destruct (Prim2SF a) as [s | s | | s m e]; try destruct s; cbv; congruence.
Qed.

Lemma eq_str_true (v : value) (s : string) : eq_str v s = true ↔ v = VStr s.
Proof.
  destruct v; simpl; try (split; [discriminate | congruence]).
  rewrite String.eqb_eq. split; congruence.
Qed.

Lemma eq_str_false (v : value) (s : string) : eq_str v s = false ↔ v ≠ VStr s.
Proof.
  rewrite <- eq_str_true. destruct (eq_str v s); split; congruence.
Qed.

Lemma get_dict (d : gmap string value) (key : string) (dflt : value) :
  get (VDict d) key dflt = Return (default dflt (d !! key)).
Proof. reflexivity. Qed.

(** What [calculate] does once the amount has been read and found to pass
    the test [amount <= 0]: the rest of the [try] block. *)
Lemma calculate_try_past_amount (env : Env) (data : gmap string value) (a : float) :
  float_ (float_of_str env) (default (VInt 0) (data !! "amount")) = Return a →
  (a <=? 0)%float = false →
  calculate_try env (post data) =
    (rates ← get_all_rates env;
     if eq_str (default (VStr "doverka") (data !! "method")) "broker" then
       cls ← BrokerCalculatorDetailed env;
       custom_rub_usdt ← float_ (float_of_str env)
                          (default (VFloat 80.9%float) (data !! "custom_rub_usdt"));
       usdt_thb ← getitem rates "usdt_thb";
       broker ← cls usdt_thb custom_rub_usdt
                  (default (VStr "medium") (data !! "commission_level"));
       broker_dispatch broker
         (default (VStr "rub-to-thb") (data !! "scenario"))
         (default (VStr "amount") (data !! "direction")) a
     else
       usdt_thb ← getitem rates "usdt_thb";
       rub_usdt ← getitem rates "rub_usdt";
       calculator ← ExchangeCalculator env usdt_thb rub_usdt;
       result ← (if eq_str (default (VStr "rub-to-thb") (data !! "scenario")) "rub-to-thb"
                 then rub_to_thb calculator a
                 else thb_to_rub calculator a);
       Return (Json result, 200)).
Proof.
  intros Hfloat Hle. unfold calculate_try. simpl.
  rewrite Hfloat. simpl. rewrite Hle.
  destruct (get_all_rates env) as [rates | e]; simpl; [| reflexivity].
  destruct (eq_str _ "broker"); [| reflexivity].
  destruct (BrokerCalculatorDetailed env) as [cls | e]; reflexivity.
Qed.

(** C3 (as stated, refuted): a broker request with a positive amount and
    the scenario thb-to-rub, whose custom_rub_usdt is null, is answered
    with status 500 although every collaborator works: [float(None)] raises
    before the scenario is looked at. *)
Lemma calculate_broker_invalid_scenario_null_rate :
  let data : gmap string value :=
    <["method" := VStr "broker"]> (<["scenario" := VStr "thb-to-rub"]>
    (<["amount" := VInt 100]> {[ "custom_rub_usdt" := VNone ]})) in
  data !! "method" = Some (VStr "broker")
  ∧ data !! "scenario" = Some (VStr "thb-to-rub")
  ∧ float_ (float_of_str env_up) (default (VInt 0) (data !! "amount")) = Return 100%float
  ∧ (0 <? 100)%float = true
  ∧ calculate env_up (post data)
    = (error_body "float() argument must be a string or a real number, not 'NoneType'", 500)
  ∧ calculate env_up (post data) ≠ (error_body "Invalid scenario for broker", 400).
Proof.
  repeat split; try (vm_compute; reflexivity).
  intros H. apply (f_equal snd) in H. vm_compute in H. discriminate H.
Qed.

(** C3 (amended): in broker mode, with a positive amount and a scenario
    other than rub-to-thb, thb-to-usdt and usdt-to-thb, the answer is
    status 400 with body [{error: "Invalid scenario for broker"}] provided
    the steps before the dispatch raise nothing: the rates are fetched and
    hold usdt_thb, custom_rub_usdt (80.9 when absent) converts to a float
    and the broker calculator is imported and constructed. *)
Theorem calculate_broker_invalid_scenario
    (env : Env) (data : gmap string value) (a custom : float)
    (scenario rates usdt_thb : value)
    (cls : value → float → value → result broker_calc) (broker : broker_calc) :
  data !! "method" = Some (VStr "broker") →
  data !! "scenario" = Some scenario →
  scenario ≠ VStr "rub-to-thb" →
  scenario ≠ VStr "thb-to-usdt" →
  scenario ≠ VStr "usdt-to-thb" →
  float_ (float_of_str env) (default (VInt 0) (data !! "amount")) = Return a →
  (0 <? a)%float = true →
  get_all_rates env = Return rates →
  BrokerCalculatorDetailed env = Return cls →
  float_ (float_of_str env) (default (VFloat 80.9%float) (data !! "custom_rub_usdt"))
    = Return custom →
  getitem rates "usdt_thb" = Return usdt_thb →
  cls usdt_thb custom (default (VStr "medium") (data !! "commission_level"))
    = Return broker →
  calculate env (post data) = (error_body "Invalid scenario for broker", 400).
Proof.
  intros Hm Hs H1 H2 H3 Ha Hpos Hrates Hcls Hcustom Husdt Hbroker.
  unfold calculate.
  rewrite (calculate_try_past_amount env data a Ha (positive_not_le a Hpos)).
  rewrite Hrates, Hm, Hs, Hcls. simpl.
  rewrite Hcustom. simpl. rewrite Husdt. simpl. rewrite Hbroker. simpl.
  unfold broker_dispatch.
  apply eq_str_false in H1, H2, H3. rewrite H1, H2, H3. reflexivity.
Qed.

Lemma calculate_broker_invalid_scenario_witness :
  calculate env_up
    (post (<["method" := VStr "broker"]> (<["scenario" := VStr "thb-to-rub"]>
           {[ "amount" := VInt 100 ]})))
  = (error_body "Invalid scenario for broker", 400).
Proof.
  apply (calculate_broker_invalid_scenario env_up _ 100%float 80.9%float
           (VStr "thb-to-rub") sample_rates (VFloat 31.5%float)
           (fun _ _ _ => Return sample_broker) sample_broker);
    try (vm_compute; reflexivity); discriminate.
Defined.

(** C4 (the code at the failing input): a doverka request for the
    scenario thb-to-usdt is not rejected; it is computed by [thb_to_rub]
    and answered with status 200. *)
Theorem calculate_doverka_thb_to_usdt :
  calculate env_up
    (post (<["method" := VStr "doverka"]> (<["scenario" := VStr "thb-to-usdt"]>
           {[ "amount" := VInt 100 ]})))
  = (Json (VDict (<["op" := VStr "thb_to_rub"]> {[ "amount" := VFloat 100%float ]})), 200).
Proof. vm_compute. reflexivity. Qed.

(** In doverka mode nothing rejects a scenario: whatever it is, a request
    whose amount passes the test is never answered with status 400. *)
Lemma calculate_doverka_never_400 (env : Env) (data : gmap string value) (a : float) :
  eq_str (default (VStr "doverka") (data !! "method")) "broker" = false →
  float_ (float_of_str env) (default (VInt 0) (data !! "amount")) = Return a →
  (a <=? 0)%float = false →
  (calculate env (post data)).2 = 200 ∨ (calculate env (post data)).2 = 500.
Proof.
  intros Hm Ha Hle. unfold calculate.
  rewrite (calculate_try_past_amount env data a Ha Hle), Hm.
  destruct (get_all_rates env) as [rates | e]; simpl; [| by right].
  destruct (getitem rates "usdt_thb"); simpl; [| by right].
  destruct (getitem rates "rub_usdt"); simpl; [| by right].
  destruct (ExchangeCalculator env _ _) as [calc | e]; simpl; [| by right].
  destruct (eq_str _ "rub-to-thb");
    [destruct (rub_to_thb calc a) | destruct (thb_to_rub calc a)];
    simpl; auto.
Qed.

(** C5 (as stated, refuted): when the rate fetch fails under
    POST /api/calculate, the answer carries the error message only; the
    fallback rates are not in it. *)
Lemma calculate_fetch_failure_no_fallback :
  let data : gmap string value := {[ "amount" := VInt 100 ]} in
  get_all_rates env_down = Raise (Exn "ConnectionError" "upstream unavailable")
  ∧ calculate env_down (post data) = (error_body "upstream unavailable", 500)
  ∧ body_field (calculate env_down (post data)) "usdt_thb" = None
  ∧ body_field (calculate env_down (post data)) "rub_usdt" = None.
Proof. repeat split; vm_compute; reflexivity. Qed.

(** C5 (amended): when the rate fetch fails, GET /api/rates answers with
    status 500 and a body that holds the error message and the fallback
    rates usdt_thb = 31.16 and rub_usdt = 84.2271; POST /api/calculate,
    which fetches only once the amount has passed its test, answers with
    status 500 and the error message alone. *)
Theorem fetch_failure_responses (env : Env) (e : exn) :
  get_all_rates env = Raise e →
  (get_rates env).2 = 500
  ∧ body_field (get_rates env) "error" = Some (VStr (str_of_exn e))
  ∧ body_field (get_rates env) "usdt_thb" = Some (VFloat 31.16%float)
  ∧ body_field (get_rates env) "rub_usdt" = Some (VFloat 84.2271%float)
  ∧ ∀ (data : gmap string value) (a : float),
      float_ (float_of_str env) (default (VInt 0) (data !! "amount")) = Return a →
      (a <=? 0)%float = false →
      calculate env (post data) = (error_body (str_of_exn e), 500).
Proof.
  intros Hfetch.
  unfold get_rates, get_rates_try. rewrite Hfetch. simpl.
  repeat split.
  intros data a Ha Hle. unfold calculate.
  rewrite (calculate_try_past_amount env data a Ha Hle), Hfetch. reflexivity.
Qed.

Lemma fetch_failure_responses_witness :
  (get_rates env_down).2 = 500
  ∧ body_field (get_rates env_down) "error" = Some (VStr "upstream unavailable")
  ∧ body_field (get_rates env_down) "usdt_thb" = Some (VFloat 31.16%float)
  ∧ body_field (get_rates env_down) "rub_usdt" = Some (VFloat 84.2271%float)
  ∧ ∀ (data : gmap string value) (a : float),
      float_ (float_of_str env_down) (default (VInt 0) (data !! "amount")) = Return a →
      (a <=? 0)%float = false →
      calculate env_down (post data) = (error_body "upstream unavailable", 500).
Proof.
  apply (fetch_failure_responses env_down (Exn "ConnectionError" "upstream unavailable")).
  reflexivity.
Defined.

(** C6: GET /api/rates answers a successful fetch with status 200 and the
    body [{usdt_thb, rub_usdt, timestamp}], the two rates being the floats
    of the snapshot and the timestamp the isoformat string of the clock;
    it answers a failed fetch with status 500 and exactly the body
    [{error: str(e), usdt_thb: 31.16, rub_usdt: 84.2271}]. *)
Theorem get_rates_responses (env : Env) :
  (∀ (rates : value) (usdt_thb rub_usdt : float),
     get_all_rates env = Return rates →
     RateSnapshot usdt_thb rub_usdt rates →
     get_rates env =
       (Json (VDict (<["usdt_thb" := VFloat usdt_thb]>
                    (<["rub_usdt" := VFloat rub_usdt]>
                    {[ "timestamp" := VStr (get_timestamp env) ]}))), 200))
  ∧ (∀ e : exn,
     get_all_rates env = Raise e →
     get_rates env =
       (Json (VDict (<["error" := VStr (str_of_exn e)]>
                    (<["usdt_thb" := VFloat 31.16%float]>
                    {[ "rub_usdt" := VFloat 84.2271%float ]}))), 500)).
Proof.
  split.
  - intros rates u r Hfetch (d & -> & Hu & Hr).
    unfold get_rates, get_rates_try. rewrite Hfetch. simpl.
    rewrite Hu. simpl. rewrite Hr. reflexivity.
  - intros e Hfetch.
    unfold get_rates, get_rates_try. rewrite Hfetch. reflexivity.
Qed.

Lemma get_rates_responses_witness :
  get_rates env_up =
    (Json (VDict (<["usdt_thb" := VFloat 31.5%float]>
                 (<["rub_usdt" := VFloat 80.25%float]>
                 {[ "timestamp" := VStr "2024-01-01T00:00:00" ]}))), 200)
  ∧ get_rates env_down =
    (Json (VDict (<["error" := VStr "upstream unavailable"]>
                 (<["usdt_thb" := VFloat 31.16%float]>
                 {[ "rub_usdt" := VFloat 84.2271%float ]}))), 500).
Proof.
  split.
  - apply (proj1 (get_rates_responses env_up) sample_rates).
    + reflexivity.
    + eexists. split; [reflexivity |]. split; vm_compute; reflexivity.
  - apply (proj2 (get_rates_responses env_down)
             (Exn "ConnectionError" "upstream unavailable")).
    reflexivity.
Defined.

(** *** Exceptions in [calculate] *)

(** The places of the [try] block that raise, in the order of the source. *)
Lemma calculate_try_get_json_raises (env : Env) (e : exn) :
  calculate_try env {| get_json := Raise e |} = Raise e.
Proof. reflexivity. Qed.

Lemma calculate_try_not_an_object (env : Env) (v : value) :
  (∀ d, v ≠ VDict d) →
  calculate_try env {| get_json := Return v |}
  = Raise (Exn "AttributeError"
             ("'" +:+ type_name v +:+ "' object has no attribute 'get'")).
Proof. intros Hv. destruct v; try reflexivity. by destruct (Hv d). Qed.

Lemma calculate_try_amount_raises (env : Env) (data : gmap string value) (e : exn) :
  float_ (float_of_str env) (default (VInt 0) (data !! "amount")) = Raise e →
  calculate_try env (post data) = Raise e.
Proof. intros Ha. unfold calculate_try. simpl. rewrite Ha. reflexivity. Qed.

Lemma calculate_try_operation_raises
    (env : Env) (data : gmap string value) (a : float)
    (rates usdt_thb rub_usdt : value) (calc : exchange_calc) (e : exn) :
  eq_str (default (VStr "doverka") (data !! "method")) "broker" = false →
  float_ (float_of_str env) (default (VInt 0) (data !! "amount")) = Return a →
  (a <=? 0)%float = false →
  get_all_rates env = Return rates →
  getitem rates "usdt_thb" = Return usdt_thb →
  getitem rates "rub_usdt" = Return rub_usdt →
  ExchangeCalculator env usdt_thb rub_usdt = Return calc →
  (if eq_str (default (VStr "rub-to-thb") (data !! "scenario")) "rub-to-thb"
   then rub_to_thb calc a else thb_to_rub calc a) = Raise e →
  calculate_try env (post data) = Raise e.
Proof.
  intros Hm Ha Hle Hrates Hu Hr Hcalc Hop.
  rewrite (calculate_try_past_amount env data a Ha Hle), Hrates, Hm. simpl.
  rewrite Hu. simpl. rewrite Hr. simpl. rewrite Hcalc. simpl.
  rewrite Hop. reflexivity.
Qed.

(** C7: an exception [e] (an instance of [Exception], which is what the
    handler catches) raised by any step of [calculate] is answered with
    status 500 and body [{error: str(e)}].  The steps are, in the order of
    the source: [request.get_json()]; [data.get] on a body that is not an
    object; [float(amount)]; the rate fetch; in broker mode the import of
    the calculator class, [float(custom_rub_usdt)], [rates['usdt_thb']],
    the constructor and the selected operation; otherwise
    [rates['usdt_thb']], [rates['rub_usdt']], the constructor and the
    selected operation.  Each step is reached when the ones before it
    returned. *)
Theorem calculate_exception_500 (env : Env) (e : exn) :
  (∀ req, get_json req = Raise e →
     calculate env req = (error_body (str_of_exn e), 500))
  ∧ (∀ v, get v "method" (VStr "doverka") = Raise e →
       calculate env {| get_json := Return v |} = (error_body (str_of_exn e), 500))
  ∧ ∀ data : gmap string value,
      (float_ (float_of_str env) (default (VInt 0) (data !! "amount")) = Raise e →
       calculate env (post data) = (error_body (str_of_exn e), 500))
      ∧ ∀ a,
          float_ (float_of_str env) (default (VInt 0) (data !! "amount")) = Return a →
          (a <=? 0)%float = false →
          (get_all_rates env = Raise e →
           calculate env (post data) = (error_body (str_of_exn e), 500))
          ∧ ∀ rates,
              get_all_rates env = Return rates →
              (default (VStr "doverka") (data !! "method") = VStr "broker" →
               (BrokerCalculatorDetailed env = Raise e →
                calculate env (post data) = (error_body (str_of_exn e), 500))
               ∧ ∀ cls,
                   BrokerCalculatorDetailed env = Return cls →
                   (float_ (float_of_str env)
                      (default (VFloat 80.9%float) (data !! "custom_rub_usdt")) = Raise e →
                    calculate env (post data) = (error_body (str_of_exn e), 500))
                   ∧ ∀ custom,
                       float_ (float_of_str env)
                         (default (VFloat 80.9%float) (data !! "custom_rub_usdt"))
                         = Return custom →
                       (getitem rates "usdt_thb" = Raise e →
                        calculate env (post data) = (error_body (str_of_exn e), 500))
                       ∧ ∀ usdt_thb,
                           getitem rates "usdt_thb" = Return usdt_thb →
                           (cls usdt_thb custom
                              (default (VStr "medium") (data !! "commission_level"))
                              = Raise e →
                            calculate env (post data)
                              = (error_body (str_of_exn e), 500))
                           ∧ ∀ broker,
                               cls usdt_thb custom
                                 (default (VStr "medium") (data !! "commission_level"))
                                 = Return broker →
                               (default (VStr "rub-to-thb") (data !! "scenario")
                                  = VStr "rub-to-thb"
                                ∧ (if eq_str (default (VStr "amount") (data !! "direction"))
                                        "target"
                                   then rub_to_thb_target broker a
                                   else rub_to_thb_amount broker a) = Raise e)
                               ∨ (default (VStr "rub-to-thb") (data !! "scenario")
                                    = VStr "thb-to-usdt"
                                  ∧ (if eq_str (default (VStr "amount") (data !! "direction"))
                                          "target"
                                     then thb_to_usdt_target broker a
                                     else thb_to_usdt_amount broker a) = Raise e)
                               ∨ (default (VStr "rub-to-thb") (data !! "scenario")
                                    = VStr "usdt-to-thb"
                                  ∧ (if eq_str (default (VStr "amount") (data !! "direction"))
                                          "target"
                                     then usdt_to_thb_target broker a
                                     else usdt_to_thb_amount broker a) = Raise e) →
                               calculate env (post data)
                                 = (error_body (str_of_exn e), 500))
              ∧ (default (VStr "doverka") (data !! "method") ≠ VStr "broker" →
                 (getitem rates "usdt_thb" = Raise e →
                  calculate env (post data) = (error_body (str_of_exn e), 500))
                 ∧ ∀ usdt_thb,
                     getitem rates "usdt_thb" = Return usdt_thb →
                     (getitem rates "rub_usdt" = Raise e →
                      calculate env (post data) = (error_body (str_of_exn e), 500))
                     ∧ ∀ rub_usdt,
                         getitem rates "rub_usdt" = Return rub_usdt →
                         (ExchangeCalculator env usdt_thb rub_usdt = Raise e →
                          calculate env (post data) = (error_body (str_of_exn e), 500))
                         ∧ ∀ calc,
                             ExchangeCalculator env usdt_thb rub_usdt = Return calc →
                             (if eq_str (default (VStr "rub-to-thb") (data !! "scenario"))
                                   "rub-to-thb"
                              then rub_to_thb calc a
                              else thb_to_rub calc a) = Raise e →
                             calculate env (post data)
                               = (error_body (str_of_exn e), 500)).
Proof.
  split; [| split].
  - intros [j] Hj. simpl in Hj. subst j. reflexivity.
  - intros v Hv. unfold calculate, calculate_try. simpl. by rewrite Hv.
  - intros data. split.
    { intros Ha. unfold calculate.
      by rewrite (calculate_try_amount_raises env data e Ha). }
    intros a Ha Hle. unfold calculate.
    rewrite (calculate_try_past_amount env data a Ha Hle).
    split; [by intros -> |].
    intros rates ->. simpl. split.
    + intros ->%eq_str_true.
      split; [by intros -> |]. intros cls ->. simpl.
      split; [by intros -> |]. intros custom ->. simpl.
      split; [by intros -> |]. intros usdt_thb ->. simpl.
      split; [by intros -> |]. intros broker ->. simpl.
      unfold broker_dispatch.
      intros [[-> Hop] | [[-> Hop] | [-> Hop]]]; simpl; by rewrite Hop.
    + intros ->%eq_str_false.
      split; [by intros -> |]. intros usdt_thb ->. simpl.
      split; [by intros -> |]. intros rub_usdt ->. simpl.
      split; [by intros -> |]. intros calc ->. simpl.
      by intros ->.
Qed.

Lemma calculate_exception_500_witness :
  calculate env_down (post {[ "amount" := VInt 100 ]})
  = (error_body "upstream unavailable", 500)
  ∧ calculate env_up
      (post (<["method" := VStr "broker"]> (<["amount" := VInt 100]>
             {[ "custom_rub_usdt" := VStr "cheap" ]})))
    = (error_body "could not convert string to float: 'cheap'", 500).
Proof.
  split.
  - destruct (calculate_exception_500 env_down
                (Exn "ConnectionError" "upstream unavailable")) as (_ & _ & H).
    destruct (H ({[ "amount" := VInt 100 ]} : gmap string value)) as [_ Hpast].
    destruct (Hpast 100%float) as [Hfetch _]; [vm_compute; reflexivity .. |].
    apply Hfetch. reflexivity.
  - destruct (calculate_exception_500 env_up
                (Exn "ValueError" "could not convert string to float: 'cheap'"))
      as (_ & _ & H).
    destruct (H (<["method" := VStr "broker"]> (<["amount" := VInt 100]>
                 {[ "custom_rub_usdt" := VStr "cheap" ]}))) as [_ Hpast].
    destruct (Hpast 100%float) as [_ Hrates]; [vm_compute; reflexivity .. |].
    destruct (Hrates sample_rates) as [Hbroker _]; [reflexivity |].
    destruct Hbroker as [_ Hcls]; [vm_compute; reflexivity |].
    destruct (Hcls (fun _ _ _ => Return sample_broker)) as [Hcustom _];
      [reflexivity |].
    apply Hcustom. vm_compute. reflexivity.
Defined.

(** *** The request fields [calculate] reads *)

Lemma calculate_request_fields (env : Env) (d1 d2 : gmap string value) :
  request_fields d1 = request_fields d2 →
  calculate env (post d1) = calculate env (post d2).
Proof.
  unfold request_fields. intros [= Hm Hs Hd Ha Hc Hl].
  unfold calculate, calculate_try. simpl.
  by rewrite Hm, Hs, Hd, Ha, Hc, Hl.
Qed.

(** The direction is read in broker mode only. *)
Lemma calculate_not_broker_ignores_direction (env : Env) (d1 d2 : gmap string value) :
  eq_str (default (VStr "doverka") (d1 !! "method")) "broker" = false →
  delete "direction" d1 = delete "direction" d2 →
  calculate env (post d1) = calculate env (post d2).
Proof.
  intros Hm Hdel.
  assert (Hk : ∀ k, k ≠ "direction" → d2 !! k = d1 !! k).
  { intros k Hk.
    rewrite <- (lookup_delete_ne d1 "direction" k), <- (lookup_delete_ne d2 "direction" k)
      by done.
    by rewrite Hdel. }
  unfold calculate.
  destruct (float_ (float_of_str env) (default (VInt 0) (d1 !! "amount")))
    as [a | e] eqn:Ha.
  - destruct (a <=? 0)%float eqn:Hle.
    + rewrite !(calculate_try_amount_le_0 env _ a); rewrite ?(Hk "amount"); done.
    + rewrite !(calculate_try_past_amount env _ a); rewrite ?(Hk "amount"); try done.
      rewrite (Hk "method"), (Hk "scenario"), Hm by done. reflexivity.
  - rewrite !(calculate_try_amount_raises env _ e); rewrite ?(Hk "amount"); done.
Qed.

(** C9: two doverka requests that differ in the direction field only get
    the same answer. *)
Theorem calculate_doverka_ignores_direction (env : Env) (d1 d2 : gmap string value) :
  d1 !! "method" = Some (VStr "doverka") →
  delete "direction" d1 = delete "direction" d2 →
  calculate env (post d1) = calculate env (post d2).
Proof.
  intros Hm. apply calculate_not_broker_ignores_direction. by rewrite Hm.
Qed.

Lemma calculate_doverka_ignores_direction_witness :
  calculate env_up
    (post (<["method" := VStr "doverka"]> (<["direction" := VStr "target"]>
           {[ "amount" := VInt 100 ]})))
  = calculate env_up
    (post (<["method" := VStr "doverka"]> (<["direction" := VStr "amount"]>
           {[ "amount" := VInt 100 ]}))).
Proof.
  apply calculate_doverka_ignores_direction.
  - vm_compute. reflexivity.
  - vm_compute. reflexivity.
Defined.

Ltac default_field :=
  apply calculate_request_fields; unfold request_fields;
  repeat (rewrite lookup_delete_eq || rewrite lookup_insert_eq
          || (rewrite lookup_delete_ne by done)
          || (rewrite lookup_insert_ne by done));
  reflexivity.

(** C10: a field missing from the request stands for its default: method
    for "doverka", scenario for "rub-to-thb", direction for "amount",
    amount for 0, custom_rub_usdt for 80.9 and commission_level for
    "medium"; a request without amount is answered with status 400 and
    [{error: "Invalid amount"}]. *)
Theorem calculate_defaults (env : Env) (data : gmap string value) :
  calculate env (post (delete "method" data))
    = calculate env (post (<["method" := VStr "doverka"]> data))
  ∧ calculate env (post (delete "scenario" data))
    = calculate env (post (<["scenario" := VStr "rub-to-thb"]> data))
  ∧ calculate env (post (delete "direction" data))
    = calculate env (post (<["direction" := VStr "amount"]> data))
  ∧ calculate env (post (delete "amount" data))
    = calculate env (post (<["amount" := VInt 0]> data))
  ∧ calculate env (post (delete "custom_rub_usdt" data))
    = calculate env (post (<["custom_rub_usdt" := VFloat 80.9%float]> data))
  ∧ calculate env (post (delete "commission_level" data))
    = calculate env (post (<["commission_level" := VStr "medium"]> data))
  ∧ calculate env (post (delete "amount" data)) = (error_body "Invalid amount", 400).
Proof.
  repeat split; try default_field.
  unfold calculate.
  rewrite (calculate_try_amount_le_0 env _ 0%float); [reflexivity | |].
  - rewrite lookup_delete_eq. vm_compute. reflexivity.
  - vm_compute. reflexivity.
Qed.

(** *** Prefixes and suffixes of file names *)

Lemma append_cons (c : Ascii.ascii) (s t : string) :
  String c s +:+ t = String c (s +:+ t).
Proof. reflexivity. Qed.

Lemma append_nil (t : string) : "" +:+ t = t.
Proof. reflexivity. Qed.

Lemma startswith_spec (s p : string) :
  startswith s p = true ↔ ∃ rest, s = p +:+ rest.
Proof.
  unfold startswith. revert s.
  induction p as [| c p IH]; intros s; simpl.
  - destruct s; split; eauto.
  - destruct s as [| c' s]; simpl.
    + split; [discriminate | intros [rest Hrest]; discriminate].
    + destruct (Ascii.ascii_dec c c') as [-> | Hne].
      * rewrite IH.
        split; intros [rest Hrest]; exists rest; rewrite append_cons in *; congruence.
      * split; [discriminate |].
        intros [rest Hrest]. rewrite append_cons in Hrest. congruence.
Qed.

Lemma string_length_app (s t : string) :
  String.length (s +:+ t) = (String.length s + String.length t)%nat.
Proof.
  induction s as [| c s IH]; rewrite ?append_nil, ?append_cons; simpl; congruence.
Qed.

Lemma substring_whole (s : string) : String.substring 0 (String.length s) s = s.
Proof. induction s as [| c s IH]; simpl; congruence. Qed.

Lemma substring_skip (q p : string) (m : nat) :
  String.substring (String.length q) m (q +:+ p) = String.substring 0 m p.
Proof.
  induction q as [| c q IH]; rewrite ?append_nil, ?append_cons; simpl;
    [reflexivity | apply IH].
Qed.

Lemma substring_split (s : string) (n : nat) :
  (n ≤ String.length s)%nat →
  s = String.substring 0 n s +:+ String.substring n (String.length s - n) s.
Proof.
  revert n. induction s as [| c s IH]; intros n Hn; simpl in *.
  - by destruct n.
  - destruct n as [| n]; simpl.
    + by rewrite append_nil, substring_whole.
    + rewrite append_cons. f_equal. apply IH. lia.
Qed.

Lemma endswith_spec (s p : string) :
  endswith s p = true ↔ ∃ stem, s = stem +:+ p.
Proof.
  unfold endswith. rewrite andb_true_iff, Nat.leb_le, String.eqb_eq. split.
  - intros [Hlen Hsub].
    exists (String.substring 0 (String.length s - String.length p) s).
    etrans; [apply (substring_split s (String.length s - String.length p)); lia |].
    f_equal.
    replace (String.length s - (String.length s - String.length p))%nat
      with (String.length p) by lia.
    exact Hsub.
  - intros [stem ->]. rewrite string_length_app. split; [lia |].
    replace (String.length stem + String.length p - String.length p)%nat
      with (String.length stem) by lia.
    by rewrite substring_skip, substring_whole.
Qed.

Lemma has_allowed_extension_spec (filename : string) :
  has_allowed_extension filename = true
  ↔ ∃ ext stem, ext ∈ allowed_extensions ∧ filename = stem +:+ ext.
Proof.
  unfold has_allowed_extension. rewrite existsb_exists. split.
  - intros (ext & Hin & Hend). apply endswith_spec in Hend as [stem ->].
    exists ext, stem. by rewrite list_elem_of_In.
  - intros (ext & stem & Hin & ->). exists ext. split.
    + by apply list_elem_of_In.
    + apply endswith_spec. by exists stem.
Qed.

(** C8 (the code at the failing input): the file api_server.py has no
    allowed extension and the view [static_files] answers its name with an
    empty 404, but the static rule that line 16 registers hands the same
    name to [send_static_file] unchecked, which serves the file: GET
    /./api_server.py is answered with status 200. *)
Theorem static_rule_serves_any_file :
  has_allowed_extension "api_server.py" = false
  ∧ static_files env_up "api_server.py" = (Text "", 404)
  ∧ static env_up "api_server.py" = Return (File "contents of api_server.py", 200).
Proof. repeat split. Qed.

(** What [static_files] does with a name that passes both of its tests. *)
Lemma static_files_served (env : Env) (filename : string) :
  startswith filename "api" = false →
  has_allowed_extension filename = true →
  static_files env filename =
    match send_static_file env filename with
    | Return resp => resp
    | Raise _ => (Text "", 404)
    end.
Proof. intros Hapi Hext. unfold static_files. by rewrite Hapi, Hext. Qed.

(** *** The broker dispatch *)

(** For each of the three broker scenarios, the direction "target" runs
    the [_target] operation and any other direction the [_amount] one. *)
Lemma broker_dispatch_rub_to_thb (broker : broker_calc) (direction : value) (x : float) :
  broker_dispatch broker (VStr "rub-to-thb") direction x =
    (result ← (if eq_str direction "target"
               then rub_to_thb_target broker x else rub_to_thb_amount broker x);
     Return (Json result, 200)).
Proof. reflexivity. Qed.

Lemma broker_dispatch_thb_to_usdt (broker : broker_calc) (direction : value) (x : float) :
  broker_dispatch broker (VStr "thb-to-usdt") direction x =
    (result ← (if eq_str direction "target"
               then thb_to_usdt_target broker x else thb_to_usdt_amount broker x);
     Return (Json result, 200)).
Proof. reflexivity. Qed.

Lemma broker_dispatch_usdt_to_thb (broker : broker_calc) (direction : value) (x : float) :
  broker_dispatch broker (VStr "usdt-to-thb") direction x =
    (result ← (if eq_str direction "target"
               then usdt_to_thb_target broker x else usdt_to_thb_amount broker x);
     Return (Json result, 200)).
Proof. reflexivity. Qed.

(** ** Further properties of the handlers *)

(** *** [get_rates] *)

(** X1: whether the rate fetch returns or raises an [Exception],
    [get_rates] answers with status 200 or 500 and a body that holds a
    usdt_thb and a rub_usdt field: the fetched rates or the fallback ones.
    (What is not an [Exception], such as a cancellation, is not caught by
    the handler and is no outcome of [get_all_rates] here.) *)
Theorem get_rates_always_has_rates (env : Env) :
  ((get_rates env).2 = 200 ∨ (get_rates env).2 = 500)
  ∧ is_Some (body_field (get_rates env) "usdt_thb")
  ∧ is_Some (body_field (get_rates env) "rub_usdt").
Proof.
  unfold get_rates, get_rates_try.
  destruct (get_all_rates env) as [rates | e]; simpl; [| by eauto].
  destruct (getitem rates "usdt_thb") as [u | e]; simpl; [| by eauto].
  destruct (getitem rates "rub_usdt") as [r | e]; simpl; by eauto.
Qed.

(** X2: a fetch that returns a mapping without one of the two rates is
    treated like a failed fetch: status 500, the fallback rates, and the
    name of the first missing key (quoted, as [str] of a [KeyError] is) as
    the error message. *)
Theorem get_rates_missing_key (env : Env) (d : gmap string value) :
  get_all_rates env = Return (VDict d) →
  d !! "usdt_thb" = None ∨ d !! "rub_usdt" = None →
  ∃ key : string,
    d !! key = None
    ∧ (key = "usdt_thb" ∨ key = "rub_usdt" ∧ is_Some (d !! "usdt_thb"))
    ∧ get_rates env =
        (Json (VDict (<["error" := VStr ("'" +:+ key +:+ "'")]>
                     (<["usdt_thb" := VFloat 31.16%float]>
                     {[ "rub_usdt" := VFloat 84.2271%float ]}))), 500).
Proof.
  intros Hfetch Hmissing.
  unfold get_rates, get_rates_try. rewrite Hfetch. simpl.
  destruct (d !! "usdt_thb") as [u |] eqn:Hu; simpl.
  - destruct Hmissing as [? | Hr]; [discriminate |].
    exists "rub_usdt". rewrite Hr. by eauto.
  - exists "usdt_thb". by eauto.
Qed.

Lemma get_rates_missing_key_witness :
  ∃ key : string,
    ({[ "usdt_thb" := VFloat 31.5%float ]} : gmap string value) !! key = None
    ∧ (key = "usdt_thb"
       ∨ key = "rub_usdt"
         ∧ is_Some (({[ "usdt_thb" := VFloat 31.5%float ]} : gmap string value)
                    !! "usdt_thb"))
    ∧ get_rates (with_rates env_up (VDict {[ "usdt_thb" := VFloat 31.5%float ]})) =
        (Json (VDict (<["error" := VStr ("'" +:+ key +:+ "'")]>
                     (<["usdt_thb" := VFloat 31.16%float]>
                     {[ "rub_usdt" := VFloat 84.2271%float ]}))), 500).
Proof.
  apply (get_rates_missing_key
           (with_rates env_up (VDict {[ "usdt_thb" := VFloat 31.5%float ]}))).
  - reflexivity.
  - right. vm_compute. reflexivity.
Defined.

(** *** [calculate]: what the request contributes *)

(** X3: a JSON body that is not an object (null, a number, a string, a
    list) is answered with status 500 and the [AttributeError] message of
    the failed [data.get], before anything else is looked at. *)
Theorem calculate_body_not_an_object (env : Env) (v : value) :
  (∀ d, v ≠ VDict d) →
  calculate env {| get_json := Return v |}
  = (error_body ("'" +:+ type_name v +:+ "' object has no attribute 'get'"), 500).
Proof.
  intros Hv. unfold calculate.
  destruct v; try reflexivity. by destruct (Hv d).
Qed.

Lemma calculate_body_not_an_object_witness :
  calculate env_up {| get_json := Return (VList [VInt 1]) |}
  = (error_body "'list' object has no attribute 'get'", 500).
Proof.
  apply (calculate_body_not_an_object env_up (VList [VInt 1])).
  discriminate.
Defined.

(** X4: fields of the request other than the six that [calculate] reads
    change nothing. *)
Theorem calculate_ignores_other_fields
    (env : Env) (data : gmap string value) (key : string) (v : value) :
  key ∉ request_keys →
  calculate env (post (<[key := v]> data)) = calculate env (post data).
Proof.
  intros Hkey. apply calculate_request_fields. unfold request_fields.
  unfold request_keys in Hkey.
  rewrite !not_elem_of_cons in Hkey.
  destruct Hkey as (H1 & H2 & H3 & H4 & H5 & H6 & _).
  by rewrite !lookup_insert_ne.
Qed.

Lemma calculate_ignores_other_fields_witness :
  calculate env_up (post (<["note" := VStr "urgent"]> {[ "amount" := VInt 100 ]}))
  = calculate env_up (post {[ "amount" := VInt 100 ]}).
Proof.
  apply calculate_ignores_other_fields.
  unfold request_keys. rewrite !not_elem_of_cons.
  repeat split; try discriminate. apply not_elem_of_nil.
Defined.

(** *** [calculate]: the possible answers *)

(** Runs the next statement of a [try] block whose outcome is not known. *)
Ltac step_bind :=
  match goal with
  | |- context [mbind _ ?m] => destruct m eqn:?; simpl
  end.

Lemma error_body_inj (m1 m2 : string) : error_body m1 = error_body m2 → m1 = m2.
Proof.
  intros H. apply (f_equal (λ b, body_field (b, 0) "error")) in H.
  unfold body_field, error_body in H. simpl in H.
  rewrite !lookup_singleton_eq in H. congruence.
Qed.

(** How the [try] block of [calculate] ends once the amount has passed
    its test. *)
Lemma calculate_try_past_amount_cases
    (env : Env) (data : gmap string value) (a : float) :
  float_ (float_of_str env) (default (VInt 0) (data !! "amount")) = Return a →
  (a <=? 0)%float = false →
  (eq_str (default (VStr "doverka") (data !! "method")) "broker" = true
   ∧ eq_str (default (VStr "rub-to-thb") (data !! "scenario")) "rub-to-thb" = false
   ∧ eq_str (default (VStr "rub-to-thb") (data !! "scenario")) "thb-to-usdt" = false
   ∧ eq_str (default (VStr "rub-to-thb") (data !! "scenario")) "usdt-to-thb" = false
   ∧ calculate_try env (post data)
     = Return (error_body "Invalid scenario for broker", 400))
  ∨ (∃ e, calculate_try env (post data) = Raise e)
  ∨ (∃ r,
       (eq_str (default (VStr "doverka") (data !! "method")) "broker" = true →
        eq_str (default (VStr "rub-to-thb") (data !! "scenario")) "rub-to-thb"
        || eq_str (default (VStr "rub-to-thb") (data !! "scenario")) "thb-to-usdt"
        || eq_str (default (VStr "rub-to-thb") (data !! "scenario")) "usdt-to-thb"
        = true)
       ∧ calculate_try env (post data) = Return (Json r, 200)).
Proof.
  intros Ha Hle. rewrite (calculate_try_past_amount env data a Ha Hle).
  destruct (get_all_rates env) as [rates | e]; simpl;
    [| right; left; eexists; reflexivity].
  destruct (eq_str (default (VStr "doverka") (data !! "method")) "broker").
  - repeat (step_bind; [| right; left; eexists; reflexivity]).
    unfold broker_dispatch.
    destruct (eq_str _ "rub-to-thb").
    { step_bind; [right; right | right; left]; eexists; try split; reflexivity. }
    destruct (eq_str _ "thb-to-usdt").
    { step_bind; [right; right | right; left]; eexists; try split; reflexivity. }
    destruct (eq_str _ "usdt-to-thb").
    { step_bind; [right; right | right; left]; eexists; try split; reflexivity. }
    left. repeat split.
  - repeat (step_bind; [| right; left; eexists; reflexivity]).
    right; right. eexists. split; [discriminate | reflexivity].
Qed.

(** The four ways the [try] block of [calculate] ends on a JSON object. *)
Lemma calculate_try_post_cases (env : Env) (data : gmap string value) :
  (∃ a, float_ (float_of_str env) (default (VInt 0) (data !! "amount")) = Return a
        ∧ (a <=? 0)%float = true
        ∧ calculate_try env (post data) = Return (error_body "Invalid amount", 400))
  ∨ (∃ a, float_ (float_of_str env) (default (VInt 0) (data !! "amount")) = Return a
          ∧ (a <=? 0)%float = false
          ∧ eq_str (default (VStr "doverka") (data !! "method")) "broker" = true
          ∧ eq_str (default (VStr "rub-to-thb") (data !! "scenario")) "rub-to-thb" = false
          ∧ eq_str (default (VStr "rub-to-thb") (data !! "scenario")) "thb-to-usdt" = false
          ∧ eq_str (default (VStr "rub-to-thb") (data !! "scenario")) "usdt-to-thb" = false
          ∧ calculate_try env (post data)
            = Return (error_body "Invalid scenario for broker", 400))
  ∨ (∃ e, calculate_try env (post data) = Raise e)
  ∨ (∃ a r, float_ (float_of_str env) (default (VInt 0) (data !! "amount")) = Return a
            ∧ (a <=? 0)%float = false
            ∧ (eq_str (default (VStr "doverka") (data !! "method")) "broker" = true →
               eq_str (default (VStr "rub-to-thb") (data !! "scenario")) "rub-to-thb"
               || eq_str (default (VStr "rub-to-thb") (data !! "scenario")) "thb-to-usdt"
               || eq_str (default (VStr "rub-to-thb") (data !! "scenario")) "usdt-to-thb"
               = true)
            ∧ calculate_try env (post data) = Return (Json r, 200)).
Proof.
  destruct (float_ (float_of_str env) (default (VInt 0) (data !! "amount")))
    as [a | e] eqn:Ha.
  2: { right; right; left. exists e. by apply calculate_try_amount_raises. }
  destruct (a <=? 0)%float eqn:Hle.
  { left. exists a. by rewrite (calculate_try_amount_le_0 env data a). }
  right.
  destruct (calculate_try_past_amount_cases env data a Ha Hle)
    as [(Hm & H1 & H2 & H3 & Hr) | [[e He] | (r & Hs & Hr)]].
  - left. exists a. done.
  - right; left. by exists e.
  - right; right. exists a, r. done.
Qed.

(** X5: every answer of [calculate] is one of four: 400 "Invalid amount",
    400 "Invalid scenario for broker", 500 with an [{error: message}]
    body, or 200 with a JSON result; so a 400 carries one of the two fixed
    messages and nothing else. *)
Theorem calculate_outcomes (env : Env) (req : request) :
  calculate env req = (error_body "Invalid amount", 400)
  ∨ calculate env req = (error_body "Invalid scenario for broker", 400)
  ∨ (∃ msg, calculate env req = (error_body msg, 500))
  ∨ (∃ result, calculate env req = (Json result, 200)).
Proof.
  destruct req as [[v | e]]; [| by right; right; left; exists (str_of_exn e)].
  destruct v;
    try (right; right; left; eexists; unfold calculate; simpl; reflexivity).
  change {| get_json := Return (VDict d) |} with (post d).
  unfold calculate.
  destruct (calculate_try_post_cases env d)
    as [(a & _ & _ & ->) | [(a & _ & _ & _ & _ & _ & _ & ->)
       | [[e ->] | (a & r & _ & _ & _ & ->)]]]; by eauto.
Qed.

(** X6: "Invalid amount" is answered exactly when the amount converts to
    a float that is [<= 0]; a NaN amount therefore passes the test. *)
Theorem calculate_invalid_amount_iff (env : Env) (data : gmap string value) :
  (calculate env (post data) = (error_body "Invalid amount", 400)
   ↔ ∃ a, float_ (float_of_str env) (default (VInt 0) (data !! "amount")) = Return a
          ∧ (a <=? 0)%float = true)
  ∧ (data !! "amount" = Some (VFloat nan) →
     calculate env (post data) ≠ (error_body "Invalid amount", 400)).
Proof.
  assert (Hiff : calculate env (post data) = (error_body "Invalid amount", 400)
           ↔ ∃ a, float_ (float_of_str env) (default (VInt 0) (data !! "amount"))
                  = Return a ∧ (a <=? 0)%float = true).
  { split.
    - unfold calculate.
      destruct (calculate_try_post_cases env data)
        as [(a & Ha & Hle & _) | [(a & _ & _ & _ & _ & _ & _ & ->)
           | [[e ->] | (a & r & _ & _ & _ & ->)]]]; try discriminate.
      by eauto.
    - intros (a & Ha & Hle). unfold calculate.
      by rewrite (calculate_try_amount_le_0 env data a). }
  split; [exact Hiff |].
  intros Hnan [a [Ha Hle]]%Hiff.
  rewrite Hnan in Ha. simpl in Ha. injection Ha as <-.
  vm_compute in Hle. discriminate Hle.
Qed.

Lemma calculate_invalid_amount_iff_witness :
  calculate env_up (post {[ "amount" := VFloat nan ]})
  ≠ (error_body "Invalid amount", 400).
Proof.
  apply (proj2 (calculate_invalid_amount_iff env_up {[ "amount" := VFloat nan ]})).
  vm_compute. reflexivity.
Defined.

(** X7: status 200 is given only when the amount passed the test and, in
    broker mode, the scenario is one of rub-to-thb, thb-to-usdt and
    usdt-to-thb. *)
Theorem calculate_200_only_if (env : Env) (data : gmap string value) :
  (calculate env (post data)).2 = 200 →
  (∃ a, float_ (float_of_str env) (default (VInt 0) (data !! "amount")) = Return a
        ∧ (a <=? 0)%float = false)
  ∧ (default (VStr "doverka") (data !! "method") = VStr "broker" →
     default (VStr "rub-to-thb") (data !! "scenario")
     ∈ [VStr "rub-to-thb"; VStr "thb-to-usdt"; VStr "usdt-to-thb"]).
Proof.
  unfold calculate.
  destruct (calculate_try_post_cases env data)
    as [(a & _ & _ & ->) | [(a & _ & _ & _ & _ & _ & _ & ->)
       | [[e ->] | (a & r & Ha & Hle & Hscen & ->)]]]; try discriminate.
  intros _. split; [by eauto |].
  intros Hbroker%eq_str_true. specialize (Hscen Hbroker).
  rewrite !orb_true_iff, !eq_str_true in Hscen.
  rewrite !elem_of_cons. tauto.
Qed.

Lemma calculate_200_only_if_witness :
  let data : gmap string value :=
    <["method" := VStr "broker"]> (<["scenario" := VStr "usdt-to-thb"]>
    {[ "amount" := VInt 100 ]}) in
  (∃ a, float_ (float_of_str env_up) (default (VInt 0) (data !! "amount")) = Return a
        ∧ (a <=? 0)%float = false)
  ∧ (default (VStr "doverka") (data !! "method") = VStr "broker" →
     default (VStr "rub-to-thb") (data !! "scenario")
     ∈ [VStr "rub-to-thb"; VStr "thb-to-usdt"; VStr "usdt-to-thb"]).
Proof.
  intros data. apply (calculate_200_only_if env_up data).
  vm_compute. reflexivity.
Defined.

(** *** [calculate]: what each mode reads *)

(** Two requests whose amount fields are the same reach the same point
    of the [try] block; [rest] says what follows the amount test. *)
Ltac same_amount env d1 d2 Hamount :=
  let a := fresh "a" in
  let e := fresh "e" in
  let Ha := fresh "Ha" in
  let Hle := fresh "Hle" in
  unfold calculate;
  destruct (float_ (float_of_str env) (default (VInt 0) (d1 !! "amount")))
    as [a | e] eqn:Ha;
  [ destruct (a <=? 0)%float eqn:Hle;
    [ rewrite (calculate_try_amount_le_0 env d1 a Ha Hle);
      rewrite Hamount in Ha;
      rewrite (calculate_try_amount_le_0 env d2 a Ha Hle); reflexivity
    | rewrite (calculate_try_past_amount env d1 a Ha Hle);
      rewrite Hamount in Ha;
      rewrite (calculate_try_past_amount env d2 a Ha Hle) ]
  | rewrite (calculate_try_amount_raises env d1 e Ha);
    rewrite Hamount in Ha;
    rewrite (calculate_try_amount_raises env d2 e Ha); reflexivity ].

(** X8: outside broker mode the answer depends on the request only
    through the amount and through whether the scenario is "rub-to-thb":
    any method other than "broker" runs the doverka branch, any other
    scenario runs [thb_to_rub], and direction, custom_rub_usdt and
    commission_level are not read. *)
Theorem calculate_doverka_reads (env : Env) (d1 d2 : gmap string value) :
  default (VStr "doverka") (d1 !! "method") ≠ VStr "broker" →
  default (VStr "doverka") (d2 !! "method") ≠ VStr "broker" →
  default (VInt 0) (d1 !! "amount") = default (VInt 0) (d2 !! "amount") →
  (default (VStr "rub-to-thb") (d1 !! "scenario") = VStr "rub-to-thb"
   ↔ default (VStr "rub-to-thb") (d2 !! "scenario") = VStr "rub-to-thb") →
  calculate env (post d1) = calculate env (post d2).
Proof.
  intros Hm1%eq_str_false Hm2%eq_str_false Hamount Hscen.
  same_amount env d1 d2 Hamount.
  rewrite Hm1, Hm2.
  assert (eq_str (default (VStr "rub-to-thb") (d1 !! "scenario")) "rub-to-thb"
          = eq_str (default (VStr "rub-to-thb") (d2 !! "scenario")) "rub-to-thb")
    as ->; [| reflexivity].
  apply eq_true_iff_eq. by rewrite !eq_str_true.
Qed.

Lemma calculate_doverka_reads_witness :
  calculate env_up
    (post (<["method" := VStr "cash"]> (<["scenario" := VStr "usdt-to-thb"]>
           (<["amount" := VInt 100]> {[ "custom_rub_usdt" := VNone ]}))))
  = calculate env_up
    (post (<["scenario" := VStr "thb-to-rub"]> {[ "amount" := VInt 100 ]})).
Proof.
  apply calculate_doverka_reads.
  - vm_compute. discriminate.
  - vm_compute. discriminate.
  - vm_compute. reflexivity.
  - vm_compute. split; discriminate.
Defined.

Lemma broker_dispatch_direction
    (broker : broker_calc) (scenario dir1 dir2 : value) (a : float) :
  eq_str dir1 "target" = eq_str dir2 "target" →
  broker_dispatch broker scenario dir1 a = broker_dispatch broker scenario dir2 a.
Proof. intros H. unfold broker_dispatch. by rewrite H. Qed.

(** X9: the direction matters only through the test [direction ==
    'target']: two requests that differ in the direction alone, neither
    being "target", get the same answer (every such direction is treated
    as "amount"). *)
Theorem calculate_direction_not_target (env : Env) (d1 d2 : gmap string value) :
  delete "direction" d1 = delete "direction" d2 →
  default (VStr "amount") (d1 !! "direction") ≠ VStr "target" →
  default (VStr "amount") (d2 !! "direction") ≠ VStr "target" →
  calculate env (post d1) = calculate env (post d2).
Proof.
  intros Hdel Hd1%eq_str_false Hd2%eq_str_false.
  assert (Hk : ∀ k, k ≠ "direction" → d1 !! k = d2 !! k).
  { intros k Hk.
    rewrite <- (lookup_delete_ne d1 "direction" k), <- (lookup_delete_ne d2 "direction" k)
      by done.
    by rewrite Hdel. }
  assert (Hamount : default (VInt 0) (d1 !! "amount") = default (VInt 0) (d2 !! "amount"))
    by (by rewrite (Hk "amount")).
  same_amount env d1 d2 Hamount.
  rewrite (Hk "method"), (Hk "scenario"), (Hk "custom_rub_usdt"),
    (Hk "commission_level") by done.
  destruct (get_all_rates env) as [rates | e]; simpl; [| reflexivity].
  destruct (eq_str _ "broker"); [| reflexivity].
  repeat (step_bind; [| reflexivity]).
  rewrite (broker_dispatch_direction _ _ (default (VStr "amount") (d1 !! "direction"))
             (default (VStr "amount") (d2 !! "direction"))) by congruence.
  reflexivity.
Qed.

Lemma calculate_direction_not_target_witness :
  calculate env_up
    (post (<["method" := VStr "broker"]> (<["direction" := VStr "TARGET"]>
           {[ "amount" := VInt 100 ]})))
  = calculate env_up
    (post (<["method" := VStr "broker"]> (<["direction" := VStr "amount"]>
           {[ "amount" := VInt 100 ]}))).
Proof.
  apply calculate_direction_not_target.
  - vm_compute. reflexivity.
  - vm_compute. discriminate.
  - vm_compute. discriminate.
Defined.

(** X10: broker mode takes from the fetched rates the usdt_thb rate only:
    changing (or dropping) the fetched rub_usdt changes nothing in the
    answer to a broker request. *)
Theorem calculate_broker_ignores_fetched_rub_usdt
    (env : Env) (r1 r2 data : gmap string value) :
  data !! "method" = Some (VStr "broker") →
  delete "rub_usdt" r1 = delete "rub_usdt" r2 →
  calculate (with_rates env (VDict r1)) (post data)
  = calculate (with_rates env (VDict r2)) (post data).
Proof.
  intros Hm Hdel.
  assert (Hu : r1 !! "usdt_thb" = r2 !! "usdt_thb").
  { rewrite <- (lookup_delete_ne r1 "rub_usdt" "usdt_thb"),
      <- (lookup_delete_ne r2 "rub_usdt" "usdt_thb") by done.
    by rewrite Hdel. }
  unfold calculate.
  destruct (float_ (float_of_str env) (default (VInt 0) (data !! "amount")))
    as [a | e] eqn:Ha.
  - destruct (a <=? 0)%float eqn:Hle.
    + by rewrite (calculate_try_amount_le_0 (with_rates env (VDict r1)) data a),
        (calculate_try_amount_le_0 (with_rates env (VDict r2)) data a).
    + rewrite (calculate_try_past_amount (with_rates env (VDict r1)) data a),
        (calculate_try_past_amount (with_rates env (VDict r2)) data a) by done.
      simpl. rewrite Hm. simpl. unfold getitem. by rewrite Hu.
  - by rewrite (calculate_try_amount_raises (with_rates env (VDict r1)) data e),
      (calculate_try_amount_raises (with_rates env (VDict r2)) data e).
Qed.

Lemma calculate_broker_ignores_fetched_rub_usdt_witness :
  let data : gmap string value :=
    <["method" := VStr "broker"]> (<["scenario" := VStr "usdt-to-thb"]>
    {[ "amount" := VInt 100 ]}) in
  calculate (with_rates env_up (VDict {[ "usdt_thb" := VFloat 31.5%float ]})) (post data)
  = calculate
      (with_rates env_up
         (VDict (<["rub_usdt" := VFloat 80.25%float]>
                 {[ "usdt_thb" := VFloat 31.5%float ]})))
      (post data).
Proof.
  intros data. apply calculate_broker_ignores_fetched_rub_usdt.
  - vm_compute. reflexivity.
  - vm_compute. reflexivity.
Defined.

(** *** [static_files] *)

Lemma list_ascii_of_string_app (s t : string) :
  String.list_ascii_of_string (s +:+ t)
  = String.list_ascii_of_string s ++ String.list_ascii_of_string t.
Proof.
  induction s as [| c s IH]; rewrite ?append_nil, ?append_cons; simpl;
    [reflexivity | by rewrite IH].
Qed.

Lemma last_app_cons {A : Type} (l l' : list A) (x d : A) :
  List.last (l ++ x :: l') d = List.last (x :: l') d.
Proof.
  induction l as [| y l IH]; [reflexivity |].
  rewrite <- IH. change ((y :: l) ++ x :: l') with (y :: (l ++ x :: l')).
  destruct (l ++ x :: l') eqn:E; [by destruct l | reflexivity].
Qed.

(** The last character of a name that ends in [ext]. *)
Lemma last_char_suffix (stem ext : string) (c d : Ascii.ascii) (l : list Ascii.ascii) :
  String.list_ascii_of_string ext = c :: l →
  List.last (String.list_ascii_of_string (stem +:+ ext)) d = List.last (c :: l) d.
Proof.
  intros Hext. rewrite list_ascii_of_string_app, Hext. apply last_app_cons.
Qed.

(** X11: the view [static_files] never serves an HTML page: every name
    ending in ".html" is answered with an empty 404, whatever the static
    folder holds. *)
Theorem static_files_refuses_html (env : Env) (stem : string) :
  static_files env (stem +:+ ".html") = (Text "", 404).
Proof.
  assert (Hhtml : has_allowed_extension (stem +:+ ".html") = false).
  { destruct (has_allowed_extension (stem +:+ ".html")) eqn:Hext; [| reflexivity].
    apply has_allowed_extension_spec in Hext as (ext & stem' & Hin & Heq).
    apply (f_equal (λ n, List.last (String.list_ascii_of_string n) Ascii.zero)) in Heq.
    erewrite (last_char_suffix stem ".html") in Heq by reflexivity.
    unfold allowed_extensions in Hin. rewrite !elem_of_cons in Hin.
    destruct Hin as [-> | [-> | [-> | [-> | [-> | [-> | [-> | [-> | Hin]]]]]]]];
      [.. | by apply elem_of_nil in Hin];
      (erewrite last_char_suffix in Heq by reflexivity); discriminate Heq. }
  unfold static_files. rewrite Hhtml.
  by destruct (startswith _ _).
Qed.

(** X12: the view [static_files] has two kinds of answer only: an empty
    404, or the very Response [send_static_file] returned for that file
    name, unchanged; whatever [send_static_file] raises becomes the empty
    404. *)
Theorem static_files_outcomes (env : Env) (filename : string) :
  (static_files env filename = (Text "", 404)
   ∨ ∃ resp, send_static_file env filename = Return resp
             ∧ static_files env filename = resp)
  ∧ (∀ e, send_static_file env filename = Raise e →
       static_files env filename = (Text "", 404)).
Proof.
  unfold static_files.
  destruct (startswith filename "api"); [by auto |].
  destruct (has_allowed_extension filename); simpl; [| by auto].
  destruct (send_static_file env filename) as [resp | e]; split;
    by eauto.
Qed.

Lemma static_files_outcomes_witness :
  static_files
    {| float_of_str := float_of_str env_up;
       get_all_rates := get_all_rates env_up;
       get_timestamp := get_timestamp env_up;
       BrokerCalculatorDetailed := BrokerCalculatorDetailed env_up;
       ExchangeCalculator := ExchangeCalculator env_up;
       send_static_file := fun _ => Raise (Exn "NotFound" "404 Not Found") |}
    "missing.css"
  = (Text "", 404).
Proof.
  apply (proj2 (static_files_outcomes _ "missing.css") (Exn "NotFound" "404 Not Found")).
  reflexivity.
Defined.

(** X16: the view [static_files] hands a name to [send_static_file] only
    when it ends in one of the allowed extensions and does not start with
    "api": a name that starts with "api", or that ends in no allowed
    extension, is answered with an empty 404, and any other answer comes
    from [send_static_file] for a name that passed both tests. *)
Theorem static_files_view_whitelist (env : Env) (filename : string) :
  (static_files env filename ≠ (Text "", 404) →
   (∃ ext stem, ext ∈ allowed_extensions ∧ filename = stem +:+ ext)
   ∧ ¬ (∃ rest, filename = "api" +:+ rest)
   ∧ send_static_file env filename = Return (static_files env filename))
  ∧ ((∃ rest, filename = "api" +:+ rest)
     ∨ ¬ (∃ ext stem, ext ∈ allowed_extensions ∧ filename = stem +:+ ext) →
     static_files env filename = (Text "", 404)).
Proof.
  pose proof (has_allowed_extension_spec filename) as Hext.
  pose proof (startswith_spec filename "api") as Hapi.
  unfold static_files.
  destruct (startswith filename "api"), (has_allowed_extension filename);
    simpl; split; try done.
  - intros Hanswer. split; [by apply Hext |]. split.
    + intros Hpre. by apply Hapi in Hpre.
    + by destruct (send_static_file env filename).
  - intros [Hpre | Hnone].
    + by apply Hapi in Hpre.
    + destruct Hnone. by apply Hext.
Qed.

Lemma static_files_view_whitelist_witness :
  static_files env_up "api/rates.css" = (Text "", 404)
  ∧ static_files env_up "server.py" = (Text "", 404)
  ∧ send_static_file env_up "style.css" = Return (static_files env_up "style.css").
Proof.
  split; [| split].
  - apply (proj2 (static_files_view_whitelist env_up "api/rates.css")).
    left. by exists "/rates.css".
  - apply (proj2 (static_files_view_whitelist env_up "server.py")).
    right. rewrite <- has_allowed_extension_spec. discriminate.
  - apply (proj1 (static_files_view_whitelist env_up "style.css")).
    vm_compute. discriminate.
Defined.

(** *** [calculate]: the paths that reach a calculator *)

(** X13: in broker mode the calculator is built from the fetched
    usdt_thb, the float of custom_rub_usdt (80.9 when absent) and the
    commission level ("medium" when absent); the scenario selects the pair
    of operations, the direction "target" the [_target] one and any other
    direction the [_amount] one; the operation gets the float of the
    amount and its result is the body of a 200 answer. *)
Theorem calculate_broker_runs
    (env : Env) (data : gmap string value) (a custom : float)
    (rates usdt_thb r : value)
    (cls : value → float → value → result broker_calc) (broker : broker_calc) :
  data !! "method" = Some (VStr "broker") →
  float_ (float_of_str env) (default (VInt 0) (data !! "amount")) = Return a →
  (a <=? 0)%float = false →
  get_all_rates env = Return rates →
  BrokerCalculatorDetailed env = Return cls →
  float_ (float_of_str env) (default (VFloat 80.9%float) (data !! "custom_rub_usdt"))
    = Return custom →
  getitem rates "usdt_thb" = Return usdt_thb →
  cls usdt_thb custom (default (VStr "medium") (data !! "commission_level"))
    = Return broker →
  (default (VStr "rub-to-thb") (data !! "scenario") = VStr "rub-to-thb"
   ∧ (if eq_str (default (VStr "amount") (data !! "direction")) "target"
      then rub_to_thb_target broker a else rub_to_thb_amount broker a) = Return r)
  ∨ (default (VStr "rub-to-thb") (data !! "scenario") = VStr "thb-to-usdt"
     ∧ (if eq_str (default (VStr "amount") (data !! "direction")) "target"
        then thb_to_usdt_target broker a else thb_to_usdt_amount broker a) = Return r)
  ∨ (default (VStr "rub-to-thb") (data !! "scenario") = VStr "usdt-to-thb"
     ∧ (if eq_str (default (VStr "amount") (data !! "direction")) "target"
        then usdt_to_thb_target broker a else usdt_to_thb_amount broker a) = Return r) →
  calculate env (post data) = (Json r, 200).
Proof.
  intros Hm Ha Hle Hrates Hcls Hcustom Husdt Hbroker Hop.
  unfold calculate.
  rewrite (calculate_try_past_amount env data a Ha Hle), Hrates, Hm, Hcls. simpl.
  rewrite Hcustom. simpl. rewrite Husdt. simpl. rewrite Hbroker. simpl.
  destruct Hop as [[-> Hop] | [[-> Hop] | [-> Hop]]];
    unfold broker_dispatch; simpl; by rewrite Hop.
Qed.

Lemma calculate_broker_runs_witness :
  calculate env_up
    (post (<["method" := VStr "broker"]> (<["scenario" := VStr "thb-to-usdt"]>
           (<["direction" := VStr "target"]> {[ "amount" := VInt 100 ]}))))
  = (Json (VDict (<["op" := VStr "thb_to_usdt_target"]>
                  {[ "amount" := VFloat 100%float ]})), 200).
Proof.
  apply (calculate_broker_runs env_up _ 100%float 80.9%float
           sample_rates (VFloat 31.5%float) _
           (fun _ _ _ => Return sample_broker) sample_broker);
    try (vm_compute; reflexivity).
  right; left. split; vm_compute; reflexivity.
Defined.

(** X14: outside broker mode the calculator is built from the fetched
    usdt_thb and rub_usdt; the scenario "rub-to-thb" runs [rub_to_thb] and
    every other scenario [thb_to_rub], on the float of the amount, and the
    result is the body of a 200 answer. *)
Theorem calculate_doverka_runs
    (env : Env) (data : gmap string value) (a : float)
    (rates usdt_thb rub_usdt r : value) (calc : exchange_calc) :
  default (VStr "doverka") (data !! "method") ≠ VStr "broker" →
  float_ (float_of_str env) (default (VInt 0) (data !! "amount")) = Return a →
  (a <=? 0)%float = false →
  get_all_rates env = Return rates →
  getitem rates "usdt_thb" = Return usdt_thb →
  getitem rates "rub_usdt" = Return rub_usdt →
  ExchangeCalculator env usdt_thb rub_usdt = Return calc →
  (default (VStr "rub-to-thb") (data !! "scenario") = VStr "rub-to-thb"
   ∧ rub_to_thb calc a = Return r)
  ∨ (default (VStr "rub-to-thb") (data !! "scenario") ≠ VStr "rub-to-thb"
     ∧ thb_to_rub calc a = Return r) →
  calculate env (post data) = (Json r, 200).
Proof.
  intros Hm%eq_str_false Ha Hle Hrates Hu Hr Hcalc Hop.
  unfold calculate.
  rewrite (calculate_try_past_amount env data a Ha Hle), Hrates, Hm. simpl.
  rewrite Hu. simpl. rewrite Hr. simpl. rewrite Hcalc. simpl.
  destruct Hop as [[Hs%eq_str_true Hop] | [Hs%eq_str_false Hop]];
    by rewrite Hs, Hop.
Qed.

Lemma calculate_doverka_runs_witness :
  calculate env_up (post {[ "amount" := VFloat 2.5%float ]})
  = (Json (VDict (<["op" := VStr "rub_to_thb"]>
                  {[ "amount" := VFloat 2.5%float ]})), 200).
Proof.
  apply (calculate_doverka_runs env_up _ 2.5%float sample_rates
           (VFloat 31.5%float) (VFloat 80.25%float) _ sample_exchange);
    try (vm_compute; reflexivity).
  - vm_compute. discriminate.
  - left. split; vm_compute; reflexivity.
Defined.

(** X15: an amount that is present but of a type [float()] does not take
    (null, a list, an object) is not replaced by the default: the answer
    is status 500 with the [TypeError] message, not 400. *)
Theorem calculate_amount_wrong_type
    (env : Env) (data : gmap string value) (v : value) :
  data !! "amount" = Some v →
  type_name v ∈ ["NoneType"; "list"; "dict"] →
  calculate env (post data)
  = (error_body ("float() argument must be a string or a real number, not '"
                 +:+ type_name v +:+ "'"), 500).
Proof.
  intros Hv Hty. unfold calculate.
  rewrite (calculate_try_amount_raises env data
             (Exn "TypeError"
                ("float() argument must be a string or a real number, not '"
                 +:+ type_name v +:+ "'"))); [reflexivity |].
  rewrite Hv. simpl.
  rewrite !elem_of_cons in Hty.
  destruct v; simpl in *; try reflexivity;
    destruct Hty as [? | [? | [? | ?%elem_of_nil]]]; done.
Qed.

Lemma calculate_amount_wrong_type_witness :
  calculate env_up (post {[ "amount" := VNone ]})
  = (error_body "float() argument must be a string or a real number, not 'NoneType'",
     500).
Proof.
  apply (calculate_amount_wrong_type env_up _ VNone).
  - vm_compute. reflexivity.
  - apply elem_of_cons. left. reflexivity.
Defined.
